(** * CORS gas of the air web framework: a shallow embedding of
      [gases/cors.go] and the properties of its handler.

    The handler closure built by [CORSWithConfig] mutates the response of
    the context it is given and either hands the context to the next
    handler of the chain or ends the chain itself.  The embedding threads
    the context explicitly; a function body is a computation that either
    falls through to the following statement or leaves the function with a
    [return], so that the statements the source has after a [return] are
    part of the model as well. *)

From Stdlib Require Import String ZArith List DecimalString.
From stdpp Require Import base option gmap strings list.
Import ListNotations.

Local Open Scope string_scope.
Local Open Scope Z_scope.

(** ** Headers

    Header names map to the values received (request) or to be sent
    (response); a name may carry several values. *)

(** Modelled from the spec: the type [air.RequestHeader], declared in a file
    of package [air] that is not at hand.  The spec, section 6, asks it to
    "read a named request header's value as a string" and to "distinguish
    header absent from header present with empty value". *)
Module RequestHeader.

Abbreviation t := (gmap string (list string)).

Definition Get (h : t) (key : string) : string :=
  match h !! key with
  | Some (v :: _) => v
  | _ => ""
  end.

Definition Contains (h : t) (key : string) : bool :=
  match h !! key with
  | Some _ => true
  | None => false
  end.

End RequestHeader.

(** Modelled from the spec: the type [air.ResponseHeader], declared in a file
    of package [air] that is not at hand.  The spec, section 6, asks it to
    "append a value to a response header that may repeat" and to "set
    (overwrite) a response header to a single value". *)
Module ResponseHeader.

Abbreviation t := (gmap string (list string)).

Definition Add (h : t) (key value : string) : t :=
  <[key := (default [] (h !! key) ++ [value])%list]> h.

Definition Set_ (h : t) (key value : string) : t :=
  <[key := [value]]> h.

End ResponseHeader.

(** ** Request, response and context *)

Module Request.
Record t : Type := mk
  { Method : string;
    Header : RequestHeader.t }.
End Request.

Module Response.
(** [Status] and [Body] are what has been written to the client once
    [Committed] is set. *)
Record t : Type := mk
  { Header : ResponseHeader.t;
    Status : Z;
    Body : string;
    Committed : bool }.

Definition withHeader (r : t) (h : ResponseHeader.t) : t :=
  {| Header := h; Status := Status r; Body := Body r;
     Committed := Committed r |}.
End Response.

Module Context.
Record t : Type := mk
  { Request : Request.t;
    Response : Response.t;
    StatusCode : Z }.

Definition withResponse (c : t) (r : Response.t) : t :=
  {| Request := Request c; Response := r; StatusCode := StatusCode c |}.

Definition withStatusCode (c : t) (n : Z) : t :=
  {| Request := Request c; Response := Response c; StatusCode := n |}.

Definition withResponseHeader (c : t) (h : ResponseHeader.t) : t :=
  withResponse c (Response.withHeader (Response c) h).
End Context.

(** ** Handlers *)

(** A Go [error]: [None] is [nil]. *)
Definition error : Type := option string.

(** How a call ends: it returns an error value, or it panics (the call of a
    nil function value). *)
Inductive outcome : Type :=
| Returns (e : error)
| Panics.

(** [air.HandlerFunc], [func(c *Context) error]: the context after the call
    comes back with the outcome. *)
Definition HandlerFunc : Type := Context.t -> outcome * Context.t.

(** [air.GasFunc], [func(HandlerFunc) HandlerFunc]. *)
Definition GasFunc : Type := HandlerFunc -> HandlerFunc.

(** [gases.Skipper], [func(c *Context) bool]. *)
Definition Skipper : Type := Context.t -> bool.

(** ** Function bodies with early return *)

Inductive flow (A : Type) : Type :=
| Fall (a : A)          (* go on with the next statement *)
| Leave (o : outcome).  (* the function has returned or panicked *)
Arguments Fall {A} a.
Arguments Leave {A} o.

Definition body (A : Type) : Type := Context.t -> flow A * Context.t.

Definition pure {A : Type} (a : A) : body A := fun c => (Fall a, c).

Definition bind {A B : Type} (m : body A) (k : A -> body B) : body B :=
  fun c =>
    match m c with
    | (Fall a, c') => k a c'
    | (Leave o, c') => (Leave o, c')
    end.

Declare Scope body_scope.
Delimit Scope body_scope with body.
Notation "x <- m ;; k" := (bind m (fun x => k))
  (at level 100, m at next level, right associativity) : body_scope.
Notation "m ;; k" := (bind m (fun _ => k))
  (at level 100, right associativity) : body_scope.

(** The context the statement runs in. *)
Definition context : body Context.t := fun c => (Fall c, c).

(** [return h(c)]. *)
Definition return_ {A : Type} (h : HandlerFunc) : body A :=
  fun c => let (o, c') := h c in (Leave o, c').

(** The call of a nil function value. *)
Definition panic {A : Type} : body A := fun c => (Leave Panics, c).

(** [if b { m }]. *)
Definition when (b : bool) (m : body unit) : body unit :=
  if b then m else pure tt.

(** A whole function: a body that ends without a [return] yields nil. *)
Definition run (m : body unit) : HandlerFunc :=
  fun c =>
    match m c with
    | (Fall _, c') => (Returns None, c')
    | (Leave o, c') => (o, c')
    end.

(** [res.Header.Add(key, value)] and [res.Header.Set(key, value)] on the
    response of the context. *)
Definition resHeaderAdd (key value : string) : body unit :=
  fun c =>
    (Fall tt,
     Context.withResponseHeader c
       (ResponseHeader.Add (Response.Header (Context.Response c)) key value)).

Definition resHeaderSet (key value : string) : body unit :=
  fun c =>
    (Fall tt,
     Context.withResponseHeader c
       (ResponseHeader.Set_ (Response.Header (Context.Response c)) key value)).

(** [c.StatusCode = n]. *)
Definition setStatusCode (n : Z) : body unit :=
  fun c => (Fall tt, Context.withStatusCode c n).


(** ** Constants of package [air] and of the Go library *)

(** Modelled from the spec: the header names and the method names,
    constants of package [air] declared in a file that is not at hand; the
    spec writes them out ([Vary: Origin], [Access-Control-Allow-Origin], the verb
    set GET, POST, PUT, DELETE). *)
Definition HeaderOrigin : string := "Origin".
Definition HeaderVary : string := "Vary".
Definition HeaderAccessControlRequestMethod : string :=
  "Access-Control-Request-Method".
Definition HeaderAccessControlRequestHeaders : string :=
  "Access-Control-Request-Headers".
Definition HeaderAccessControlAllowOrigin : string :=
  "Access-Control-Allow-Origin".
Definition HeaderAccessControlAllowMethods : string :=
  "Access-Control-Allow-Methods".
Definition HeaderAccessControlAllowHeaders : string :=
  "Access-Control-Allow-Headers".
Definition HeaderAccessControlAllowCredentials : string :=
  "Access-Control-Allow-Credentials".
Definition HeaderAccessControlExposeHeaders : string :=
  "Access-Control-Expose-Headers".
Definition HeaderAccessControlMaxAge : string := "Access-Control-Max-Age".

Definition GET : string := "GET".
Definition POST : string := "POST".
Definition PUT : string := "PUT".
Definition DELETE : string := "DELETE".
Definition OPTIONS : string := "OPTIONS".

(** [http.StatusNoContent]. *)
Definition StatusNoContent : Z := 204.

(** [strconv.Itoa]: the decimal digits of an integer, with a minus sign
    when negative. *)
Definition Itoa (n : Z) : string := NilZero.string_of_int (Z.to_int n).

(** [strings.Join(elems, sep)]. *)
Definition Join (elems : list string) (sep : string) : string :=
  String.concat sep elems.

(** Modelled from the spec: the method [NoContent] of [air.Context],
    declared in a file of package [air] that is not at hand.  The spec,
    section 6: "set response
    status code to 204 and finalize an empty body, terminating the middleware
    chain"; the status sent is the one the caller has stored in the
    context. *)
Definition NoContent : HandlerFunc :=
  fun c =>
    (Returns None,
     Context.withResponse c
       {| Response.Header := Response.Header (Context.Response c);
          Response.Status := Context.StatusCode c;
          Response.Body := "";
          Response.Committed := true |}).

(** ** Form parameters of a request

    [Request.FormParams] reads two things from the [fasthttp] context it
    wraps: the result of [Request.MultipartForm()] and the arguments of
    [PostArgs()].  They are the inputs of the embedding. *)

(** The pair [mf, err] that [MultipartForm()] returns, as far as
    [FormParams] tells its cases apart. *)
Inductive MultipartForm : Type :=
| Form (Value : gmap string (list string))  (* err == nil, mf.Value *)
| ErrNoMultipartForm                        (* err == ErrNoMultipartForm *)
| OtherError.                               (* any other error *)

(** [Args.VisitAll]: the visitor is called on the arguments in the order
    they are stored. *)
Definition VisitAll {S : Type} (args : list (string * string))
    (f : string -> string -> S -> S) (s : S) : S :=
  fold_left (fun s kv => f (fst kv) (snd kv) s) args s.

(** The visitor of [FormParams]: [if _, ok := params[key]; ok
    { params[key] = append(params[key], v) } else { params[key] = []string{v} }]. *)
Definition addPostArg (k v : string) (params : gmap string (list string))
    : gmap string (list string) :=
  match params !! k with
  | Some vs => <[k := (vs ++ [v])%list]> params
  | None => <[k := [v]]> params
  end.

(** The body of [for k, v := range mf.Value]: [if len(v) > 0
    { params[k] = v }]. *)
Definition addFormValue (k : string) (v : list string)
    (params : gmap string (list string)) : gmap string (list string) :=
  if (0 <? length v)%nat then <[k := v]> params else params.

(** [Request.FormParams]. *)
Definition FormParams (mf : MultipartForm) (postArgs : list (string * string))
    : gmap string (list string) :=
  let params : gmap string (list string) := ∅ in
  match mf with
  | ErrNoMultipartForm => VisitAll postArgs addPostArg params
  | Form Value => map_fold addFormValue params Value
  | OtherError => params
  end.

(** The values posted under a key, in the order of the arguments. *)
Fixpoint valuesOf (key : string) (args : list (string * string))
    : list string :=
  match args with
  | [] => []
  | (k, v) :: rest =>
      if String.eqb k key then v :: valuesOf key rest else valuesOf key rest
  end.

(** ** The CORS gas *)

Module CORSConfig.
Record t : Type := mk
  { Skipper : option Skipper;     (* a Go function value, nil when unset *)
    AllowOrigins : list string;
    AllowMethods : list string;
    AllowHeaders : list string;
    AllowCredentials : bool;
    ExposeHeaders : list string;
    MaxAge : Z }.
End CORSConfig.

(** [for _, o := range allowOrigins { if o == "*" || o == origin
    { allowedOrigin = o; break } }], from [allowedOrigin := ""]. *)
Fixpoint allowedOrigin (allowOrigins : list string) (origin : string) : string :=
  match allowOrigins with
  | [] => ""
  | o :: rest =>
      if String.eqb o "*" || String.eqb o origin then o
      else allowedOrigin rest origin
  end.

(** [config.Skipper(c)]. *)
Definition callSkipper (s : option Skipper) : body bool :=
  match s with
  | Some f => fun c => (Fall (f c), c)
  | None => panic
  end.

Section CORS.

(** [defaultSkipper] is a function of package [gases] declared next to
    [cors.go]; the gas is verified for any such function. *)
Variable defaultSkipper : Skipper.

Definition DefaultCORSConfig : CORSConfig.t :=
  {| CORSConfig.Skipper := Some defaultSkipper;
     CORSConfig.AllowOrigins := ["*"];
     CORSConfig.AllowMethods := [GET; POST; PUT; DELETE];
     CORSConfig.AllowHeaders := [];
     CORSConfig.AllowCredentials := false;
     CORSConfig.ExposeHeaders := [];
     CORSConfig.MaxAge := 0 |}.

(** The "Defaults" block that opens [CORSWithConfig]. *)
Definition applyDefaults (config : CORSConfig.t) : CORSConfig.t :=
  {| CORSConfig.Skipper :=
       match CORSConfig.Skipper config with
       | None => CORSConfig.Skipper DefaultCORSConfig
       | Some s => Some s
       end;
     CORSConfig.AllowOrigins :=
       if (length (CORSConfig.AllowOrigins config) =? 0)%nat
       then CORSConfig.AllowOrigins DefaultCORSConfig
       else CORSConfig.AllowOrigins config;
     CORSConfig.AllowMethods :=
       if (length (CORSConfig.AllowMethods config) =? 0)%nat
       then CORSConfig.AllowMethods DefaultCORSConfig
       else CORSConfig.AllowMethods config;
     CORSConfig.AllowHeaders := CORSConfig.AllowHeaders config;
     CORSConfig.AllowCredentials := CORSConfig.AllowCredentials config;
     CORSConfig.ExposeHeaders := CORSConfig.ExposeHeaders config;
     CORSConfig.MaxAge := CORSConfig.MaxAge config |}.

(** The statements under "Simple request". *)
Definition simpleRequest (config : CORSConfig.t) (exposeHeaders : string)
    (originSet : bool) (allowedOrigin : string) (next : HandlerFunc)
    : body unit :=
  (resHeaderAdd HeaderVary HeaderOrigin ;;
   when (negb originSet || String.eqb allowedOrigin "") (return_ next) ;;
   resHeaderSet HeaderAccessControlAllowOrigin allowedOrigin ;;
   when (CORSConfig.AllowCredentials config)
     (resHeaderSet HeaderAccessControlAllowCredentials "true") ;;
   when (negb (String.eqb exposeHeaders ""))
     (resHeaderSet HeaderAccessControlExposeHeaders exposeHeaders) ;;
   return_ next)%body.

(** The statements under "Preflight request". *)
Definition preflightRequest (config : CORSConfig.t)
    (allowMethods allowHeaders maxAge : string) (req : Request.t)
    (originSet : bool) (allowedOrigin : string) (next : HandlerFunc)
    : body unit :=
  (resHeaderAdd HeaderVary HeaderOrigin ;;
   resHeaderAdd HeaderVary HeaderAccessControlRequestMethod ;;
   resHeaderAdd HeaderVary HeaderAccessControlRequestHeaders ;;
   when (negb originSet || String.eqb allowedOrigin "") (return_ next) ;;
   resHeaderSet HeaderAccessControlAllowOrigin allowedOrigin ;;
   resHeaderSet HeaderAccessControlAllowMethods allowMethods ;;
   when (CORSConfig.AllowCredentials config)
     (resHeaderSet HeaderAccessControlAllowCredentials "true") ;;
   (if negb (String.eqb allowHeaders "")
    then resHeaderSet HeaderAccessControlAllowHeaders allowHeaders
    else
      let h :=
        RequestHeader.Get (Request.Header req)
          HeaderAccessControlRequestHeaders in
      when (negb (String.eqb h ""))
        (resHeaderSet HeaderAccessControlAllowHeaders h)) ;;
   when (CORSConfig.MaxAge config >? 0)
     (resHeaderSet HeaderAccessControlMaxAge maxAge) ;;
   setStatusCode StatusNoContent ;;
   return_ NoContent)%body.

(** [CORSWithConfig]: the statements of the source in their order, the
    preflight block after the [return next(c)] that closes the simple
    request block. *)
Definition CORSWithConfig (config : CORSConfig.t) : GasFunc :=
  let config := applyDefaults config in
  let allowMethods := Join (CORSConfig.AllowMethods config) "," in
  let allowHeaders := Join (CORSConfig.AllowHeaders config) "," in
  let exposeHeaders := Join (CORSConfig.ExposeHeaders config) "," in
  let maxAge := Itoa (CORSConfig.MaxAge config) in
  fun next =>
    run
      (skip <- callSkipper (CORSConfig.Skipper config) ;;
       when skip (return_ next) ;;
       c <- context ;;
       let req := Context.Request c in
       let origin := RequestHeader.Get (Request.Header req) HeaderOrigin in
       let originSet :=
         RequestHeader.Contains (Request.Header req) HeaderOrigin in
       let allowedOrigin :=
         allowedOrigin (CORSConfig.AllowOrigins config) origin in
       simpleRequest config exposeHeaders originSet allowedOrigin next ;;
       preflightRequest config allowMethods allowHeaders maxAge req
         originSet allowedOrigin next)%body.

(** [CORS]. *)
Definition CORS : GasFunc := CORSWithConfig DefaultCORSConfig.

(** *** What the handler reads and what it leaves behind *)

(** The skip predicate in force once the defaults are applied. *)
Definition skipperOf (config : CORSConfig.t) : Skipper :=
  default defaultSkipper (CORSConfig.Skipper config).

(** The locals [origin] and [originSet] of the handler. *)
Definition origin (c : Context.t) : string :=
  RequestHeader.Get (Request.Header (Context.Request c)) HeaderOrigin.

Definition originSet (c : Context.t) : bool :=
  RequestHeader.Contains (Request.Header (Context.Request c)) HeaderOrigin.

(** The response header of a context. *)
Definition resHeader (c : Context.t) : ResponseHeader.t :=
  Response.Header (Context.Response c).

(** An entry of [allowOrigins] matches the origin value. *)
Definition matches (origin o : string) : Prop := o = "*" \/ o = origin.

(** The response header once the simple request block has run to one of
    its two [return next(c)], from the response header [h] it started
    with. *)
Definition simpleHeader (allowCredentials : bool) (exposeHeaders : string)
    (originSet : bool) (allowed : string) (h : ResponseHeader.t)
    : ResponseHeader.t :=
  let h1 := ResponseHeader.Add h HeaderVary HeaderOrigin in
  if negb originSet || String.eqb allowed "" then h1
  else
    let h2 := ResponseHeader.Set_ h1 HeaderAccessControlAllowOrigin allowed in
    let h3 :=
      if allowCredentials
      then ResponseHeader.Set_ h2 HeaderAccessControlAllowCredentials "true"
      else h2 in
    if negb (String.eqb exposeHeaders "")
    then ResponseHeader.Set_ h3 HeaderAccessControlExposeHeaders exposeHeaders
    else h3.

(** The context a request that is not skipped is handed on with, for a
    configuration with its defaults applied. *)
Definition handedOn (config : CORSConfig.t) (c : Context.t) : Context.t :=
  Context.withResponseHeader c
    (simpleHeader (CORSConfig.AllowCredentials config)
       (Join (CORSConfig.ExposeHeaders config) ",")
       (originSet c)
       (allowedOrigin (CORSConfig.AllowOrigins config) (origin c))
       (resHeader c)).

(** *** Requests and configurations of the examples *)

Definition neverSkip : Skipper := fun _ => false.
Definition alwaysSkip : Skipper := fun _ => true.

(** A context whose response is still untouched. *)
Definition freshContext (method : string) (header : RequestHeader.t)
    : Context.t :=
  {| Context.Request := {| Request.Method := method; Request.Header := header |};
     Context.Response :=
       {| Response.Header := ∅; Response.Status := 200; Response.Body := "";
          Response.Committed := false |};
     Context.StatusCode := 200 |}.

(** [OPTIONS] with [Origin: https://a.example] and
    [Access-Control-Request-Headers: X-Foo]. *)
Definition preflightFromA : Context.t :=
  freshContext OPTIONS
    (<[HeaderOrigin := ["https://a.example"]]>
       (<[HeaderAccessControlRequestHeaders := ["X-Foo"]]> ∅)).

(** [OPTIONS] with [Origin: https://b.example]. *)
Definition preflightFromB : Context.t :=
  freshContext OPTIONS (<[HeaderOrigin := ["https://b.example"]]> ∅).

(** [GET] with [Origin: https://a.example]. *)
Definition getFromA : Context.t :=
  freshContext GET (<[HeaderOrigin := ["https://a.example"]]> ∅).

(** [GET] with an [Origin] header that is present and empty. *)
Definition getEmptyOrigin : Context.t :=
  freshContext GET (<[HeaderOrigin := [""]]> ∅).

(** [GET] without an [Origin] header. *)
Definition getNoOrigin : Context.t := freshContext GET ∅.

Definition configOf (skipper : Skipper) (allowOrigins : list string)
    (allowCredentials : bool) (maxAge : Z) : CORSConfig.t :=
  {| CORSConfig.Skipper := Some skipper;
     CORSConfig.AllowOrigins := allowOrigins;
     CORSConfig.AllowMethods := [];
     CORSConfig.AllowHeaders := [];
     CORSConfig.AllowCredentials := allowCredentials;
     CORSConfig.ExposeHeaders := [];
     CORSConfig.MaxAge := maxAge |}.

(** [preflightFromA] with the response headers of a simple request from an
    allowed origin. *)
Definition preflightFromA_simple : Context.t :=
  Context.withResponseHeader preflightFromA
    (<[HeaderAccessControlAllowOrigin := ["https://a.example"]]>
       (<[HeaderVary := ["Origin"]]> ∅)).

(** [preflightFromA] answered as a preflight request: the chain ends with
    status 204 and an empty body. *)
Definition preflightFromA_answered : Context.t :=
  {| Context.Request := Context.Request preflightFromA;
     Context.Response :=
       {| Response.Header :=
            <[HeaderAccessControlMaxAge := ["600"]]>
              (<[HeaderAccessControlAllowHeaders := ["X-Foo"]]>
                 (<[HeaderAccessControlAllowMethods := ["GET,POST,PUT,DELETE"]]>
                    (<[HeaderAccessControlAllowOrigin := ["https://a.example"]]>
                       (<[HeaderVary :=
                            ["Origin"; "Access-Control-Request-Method";
                             "Access-Control-Request-Headers"]]> ∅))));
          Response.Status := 204;
          Response.Body := "";
          Response.Committed := true |};
     Context.StatusCode := 204 |}.

(** The configurations of the examples, named after their [AllowOrigins];
    none skips a request but the last. *)
Definition allowA : CORSConfig.t :=
  configOf neverSkip ["https://a.example"] false 0.
Definition allowA_maxAge600 : CORSConfig.t :=
  configOf neverSkip ["https://a.example"] false 600.
Definition allowA_credentials : CORSConfig.t :=
  configOf neverSkip ["https://a.example"] true 0.
Definition allowB : CORSConfig.t :=
  configOf neverSkip ["https://b.example"] false 0.
Definition allowB_A_any : CORSConfig.t :=
  configOf neverSkip ["https://b.example"; "https://a.example"; "*"] false 0.
Definition allowA_any : CORSConfig.t :=
  configOf neverSkip ["https://a.example"; "*"] false 0.
Definition allowEmpty_credentials : CORSConfig.t :=
  configOf neverSkip [""] true 0.
Definition allowEmpty_any : CORSConfig.t :=
  configOf neverSkip [""; "*"] false 0.
Definition skipAll : CORSConfig.t :=
  configOf alwaysSkip ["https://a.example"] true 600.

(** The three values the preflight block adds to [Vary]. *)
Definition preflightVary (h : ResponseHeader.t) : ResponseHeader.t :=
  ResponseHeader.Add
    (ResponseHeader.Add (ResponseHeader.Add h HeaderVary HeaderOrigin)
       HeaderVary HeaderAccessControlRequestMethod)
    HeaderVary HeaderAccessControlRequestHeaders.

(** The response header once the preflight block has run to its
    [return c.NoContent()], from the response header [h] it started with. *)
Definition preflightHeader (config : CORSConfig.t)
    (allowMethods allowHeaders maxAge : string) (req : Request.t)
    (allowed : string) (h : ResponseHeader.t) : ResponseHeader.t :=
  let h1 :=
    ResponseHeader.Set_
      (ResponseHeader.Set_ (preflightVary h)
         HeaderAccessControlAllowOrigin allowed)
      HeaderAccessControlAllowMethods allowMethods in
  let h2 :=
    if CORSConfig.AllowCredentials config
    then ResponseHeader.Set_ h1 HeaderAccessControlAllowCredentials "true"
    else h1 in
  let requested :=
    RequestHeader.Get (Request.Header req) HeaderAccessControlRequestHeaders in
  let h3 :=
    if negb (String.eqb allowHeaders "")
    then ResponseHeader.Set_ h2 HeaderAccessControlAllowHeaders allowHeaders
    else if negb (String.eqb requested "")
         then ResponseHeader.Set_ h2 HeaderAccessControlAllowHeaders requested
         else h2 in
  if CORSConfig.MaxAge config >? 0
  then ResponseHeader.Set_ h3 HeaderAccessControlMaxAge maxAge
  else h3.

(** A configuration with every field left unset. *)
Definition unset : CORSConfig.t :=
  {| CORSConfig.Skipper := None;
     CORSConfig.AllowOrigins := [];
     CORSConfig.AllowMethods := [];
     CORSConfig.AllowHeaders := [];
     CORSConfig.AllowCredentials := false;
     CORSConfig.ExposeHeaders := [];
     CORSConfig.MaxAge := 0 |}.

(** [https://a.example] allowed, two response headers exposed. *)
Definition allowA_exposing : CORSConfig.t :=
  {| CORSConfig.Skipper := Some neverSkip;
     CORSConfig.AllowOrigins := ["https://a.example"];
     CORSConfig.AllowMethods := [];
     CORSConfig.AllowHeaders := [];
     CORSConfig.AllowCredentials := false;
     CORSConfig.ExposeHeaders := ["X-Request-Id"; "X-Total"];
     CORSConfig.MaxAge := 0 |}.

(** [https://a.example] allowed, two request headers allowed, preflight
    answers cached for ten minutes. *)
Definition allowA_headers : CORSConfig.t :=
  {| CORSConfig.Skipper := Some neverSkip;
     CORSConfig.AllowOrigins := ["https://a.example"];
     CORSConfig.AllowMethods := [GET; PUT];
     CORSConfig.AllowHeaders := ["Content-Type"; "X-Token"];
     CORSConfig.AllowCredentials := true;
     CORSConfig.ExposeHeaders := [];
     CORSConfig.MaxAge := 600 |}.

(** A handler that leaves the context alone and reports that it ran. *)
Definition reached : HandlerFunc := fun c => (Returns (Some "reached"), c).

(** ** Properties *)

(** *** Function bodies *)

Lemma return_bind {A B : Type} (h : HandlerFunc) (k : A -> body B) c :
  bind (return_ h) k c = return_ h c.
Proof. unfold bind, return_. destruct (h c); reflexivity. Qed.

(** The simple request block always leaves the function through [next],
    called on the context with the headers of [simpleHeader]. *)
Lemma simpleRequest_returns config exposeHeaders originSet allowed next c :
  simpleRequest config exposeHeaders originSet allowed next c =
  return_ next
    (Context.withResponseHeader c
       (simpleHeader (CORSConfig.AllowCredentials config) exposeHeaders
          originSet allowed (resHeader c))).
Proof.
  unfold simpleRequest, simpleHeader, bind, when, resHeaderAdd, resHeaderSet.
  destruct (negb originSet || String.eqb allowed ""); cbn.
  - unfold return_. now destruct (next _).
  - destruct (CORSConfig.AllowCredentials config),
      (negb (String.eqb exposeHeaders "")); reflexivity.
Qed.

(** Statements placed after the simple request block do not run. *)
Lemma simpleRequest_leaves config exposeHeaders originSet allowed next
    (rest : body unit) c :
  bind (simpleRequest config exposeHeaders originSet allowed next)
    (fun _ => rest) c =
  simpleRequest config exposeHeaders originSet allowed next c.
Proof.
  unfold bind at 1. rewrite simpleRequest_returns.
  unfold return_. now destruct (next _).
Qed.

(** *** Defaults *)

Lemma skipper_applyDefaults config :
  CORSConfig.Skipper (applyDefaults config) = Some (skipperOf config).
Proof. unfold skipperOf. cbn. now destruct (CORSConfig.Skipper config). Qed.

Lemma applyDefaults_idem config :
  applyDefaults (applyDefaults config) = applyDefaults config.
Proof.
  unfold applyDefaults; cbn.
  destruct config as [sk ao am ah ac eh ma]; cbn.
  destruct sk, ao, am; reflexivity.
Qed.

(** *** The handler in closed form *)

Lemma CORSWithConfig_run config next c :
  CORSWithConfig config next c =
  if skipperOf config c then next c
  else next (handedOn (applyDefaults config) c).
Proof.
  unfold CORSWithConfig, run, callSkipper.
  unfold bind at 1. rewrite skipper_applyDefaults.
  destruct (skipperOf config c); unfold bind at 1, when.
  - unfold return_, pure. now destruct (next c).
  - unfold pure, context. unfold bind at 1.
    rewrite simpleRequest_leaves, simpleRequest_returns.
    unfold return_, handedOn, origin, originSet. now destruct (next _).
Qed.

(** *** Response headers *)

Lemma lookup_Add_eq (h : ResponseHeader.t) key value :
  ResponseHeader.Add h key value !! key
  = Some (default [] (h !! key) ++ [value])%list.
Proof. unfold ResponseHeader.Add. apply lookup_insert_eq. Qed.

Lemma lookup_Add_ne (h : ResponseHeader.t) key value key' :
  key' <> key -> ResponseHeader.Add h key value !! key' = h !! key'.
Proof. intros Hne. unfold ResponseHeader.Add. now apply lookup_insert_ne. Qed.

Lemma lookup_Set_eq (h : ResponseHeader.t) key value :
  ResponseHeader.Set_ h key value !! key = Some [value].
Proof. unfold ResponseHeader.Set_. apply lookup_insert_eq. Qed.

Lemma lookup_Set_ne (h : ResponseHeader.t) key value key' :
  key' <> key -> ResponseHeader.Set_ h key value !! key' = h !! key'.
Proof. intros Hne. unfold ResponseHeader.Set_. now apply lookup_insert_ne. Qed.

(** Rewrites the lookup of a header name through the [Add]s and [Set]s of
    other, distinct header names. *)
Ltac frame_lookup :=
  repeat first
    [ rewrite lookup_Set_eq
    | rewrite lookup_Add_eq
    | rewrite lookup_Set_ne by (first [discriminate | congruence])
    | rewrite lookup_Add_ne by (first [discriminate | congruence]) ].

(** The simple request block with no origin to allow: [Vary] alone. *)
Lemma simpleHeader_unmatched allowCredentials exposeHeaders originSet allowed h :
  originSet = false \/ allowed = "" ->
  simpleHeader allowCredentials exposeHeaders originSet allowed h
  = ResponseHeader.Add h HeaderVary HeaderOrigin.
Proof.
  intros [-> | ->]; unfold simpleHeader; [reflexivity |].
  now rewrite orb_true_r.
Qed.

Lemma simpleHeader_Vary allowCredentials exposeHeaders originSet allowed h :
  simpleHeader allowCredentials exposeHeaders originSet allowed h !! HeaderVary
  = Some (default [] (h !! HeaderVary) ++ [HeaderOrigin])%list.
Proof.
  unfold simpleHeader.
  destruct (negb originSet || String.eqb allowed ""), allowCredentials,
    (negb (String.eqb exposeHeaders "")); now frame_lookup.
Qed.

Lemma simpleHeader_AllowOrigin allowCredentials exposeHeaders originSet allowed h :
  simpleHeader allowCredentials exposeHeaders originSet allowed h
    !! HeaderAccessControlAllowOrigin
  = if originSet && negb (String.eqb allowed "") then Some [allowed]
    else h !! HeaderAccessControlAllowOrigin.
Proof.
  unfold simpleHeader.
  destruct originSet, (String.eqb allowed ""), allowCredentials,
    (negb (String.eqb exposeHeaders "")); cbn [negb orb andb]; now frame_lookup.
Qed.

Lemma simpleHeader_AllowCredentials allowCredentials exposeHeaders originSet
    allowed h :
  simpleHeader allowCredentials exposeHeaders originSet allowed h
    !! HeaderAccessControlAllowCredentials
  = if originSet && negb (String.eqb allowed "") && allowCredentials
    then Some ["true"]
    else h !! HeaderAccessControlAllowCredentials.
Proof.
  unfold simpleHeader.
  destruct originSet, (String.eqb allowed ""), allowCredentials,
    (negb (String.eqb exposeHeaders "")); cbn [negb orb andb]; now frame_lookup.
Qed.

(** The simple request block touches four header names at most. *)
Lemma simpleHeader_frame allowCredentials exposeHeaders originSet allowed h key :
  key <> HeaderVary ->
  key <> HeaderAccessControlAllowOrigin ->
  key <> HeaderAccessControlAllowCredentials ->
  key <> HeaderAccessControlExposeHeaders ->
  simpleHeader allowCredentials exposeHeaders originSet allowed h !! key
  = h !! key.
Proof.
  intros Hv Ho Hc He. unfold simpleHeader.
  destruct (negb originSet || String.eqb allowed ""), allowCredentials,
    (negb (String.eqb exposeHeaders "")); now frame_lookup.
Qed.

(** *** The loop over the allowed origins *)

Lemma matches_eqb origin o :
  String.eqb o "*" || String.eqb o origin = true <-> matches origin o.
Proof.
  unfold matches. rewrite orb_true_iff, !String.eqb_eq. tauto.
Qed.

Lemma allowedOrigin_first allowOrigins origin pre o post :
  allowOrigins = (pre ++ o :: post)%list ->
  Forall (fun p => ~ matches origin p) pre ->
  matches origin o ->
  allowedOrigin allowOrigins origin = o.
Proof.
  intros -> Hpre Ho. induction Hpre as [| p pre Hp _ IH]; cbn.
  - apply matches_eqb in Ho. now rewrite Ho.
  - destruct (String.eqb p "*" || String.eqb p origin) eqn:E; [| exact IH].
    apply matches_eqb in E. contradiction.
Qed.

Lemma allowedOrigin_none allowOrigins origin :
  Forall (fun p => ~ matches origin p) allowOrigins ->
  allowedOrigin allowOrigins origin = "".
Proof.
  induction 1 as [| p rest Hp _ IH]; cbn; [reflexivity |].
  destruct (String.eqb p "*" || String.eqb p origin) eqn:E; [| exact IH].
  apply matches_eqb in E. contradiction.
Qed.

Lemma allowedOrigin_wildcard_after_nonempty pre post :
  Forall (fun p => p <> "") pre ->
  allowedOrigin (pre ++ "*" :: post) "" = "*".
Proof.
  induction 1 as [| p pre Hp _ IH]; cbn; [reflexivity |].
  destruct (String.eqb p "*" || String.eqb p "") eqn:E; [| exact IH].
  apply matches_eqb in E. destruct E as [-> | ->]; [reflexivity | contradiction].
Qed.

(** *** The handler *)

(** C2. Whatever the configuration and the request, OPTIONS included, the
    handler returns what [next] returns on a context whose status code, request
    and written response are those it was given: it never stores 204 and never
    ends the chain with the no-content response.  The reason is the second
    part: statements that follow the simple request block, as the preflight
    block does, are never run. *)
Theorem preflight_block_unreachable config next c :
  (exists c',
     CORSWithConfig config next c = next c'
     /\ Context.StatusCode c' = Context.StatusCode c
     /\ Context.Request c' = Context.Request c
     /\ Response.Status (Context.Response c')
        = Response.Status (Context.Response c)
     /\ Response.Body (Context.Response c')
        = Response.Body (Context.Response c)
     /\ Response.Committed (Context.Response c')
        = Response.Committed (Context.Response c))
  /\ (forall exposeHeaders originSet allowed (rest : body unit) c0,
        bind (simpleRequest (applyDefaults config) exposeHeaders originSet
                allowed next)
          (fun _ => rest) c0
        = return_ next
            (Context.withResponseHeader c0
               (simpleHeader
                  (CORSConfig.AllowCredentials (applyDefaults config))
                  exposeHeaders originSet allowed (resHeader c0)))).
Proof.
  split.
  - rewrite CORSWithConfig_run. destruct (skipperOf config c).
    + exists c. repeat split.
    + exists (handedOn (applyDefaults config) c). repeat split.
  - intros. now rewrite simpleRequest_leaves, simpleRequest_returns.
Qed.

(** C3. A request that is not skipped reaches [next] with the value
    [Origin] appended to the values of the response header [Vary], whether or
    not the request has an [Origin] header and whether or not an allowed origin
    matched. *)
Theorem vary_origin_always_added config next c :
  skipperOf config c = false ->
  CORSWithConfig config next c = next (handedOn (applyDefaults config) c)
  /\ resHeader (handedOn (applyDefaults config) c) !! HeaderVary
     = Some (default [] (resHeader c !! HeaderVary) ++ [HeaderOrigin])%list.
Proof.
  intros Hskip. rewrite CORSWithConfig_run, Hskip. split; [reflexivity |].
  apply simpleHeader_Vary.
Qed.

(** C4. The matched origin is the first entry of [allowOrigins], in the
    configured order, that is ["*"] or equal to the value of the request's
    [Origin]; it is the empty string when no entry matches; and when the
    handler sets [Access-Control-Allow-Origin], which it does when the
    [Origin] header is present and the matched origin is not empty, the value
    is that configured entry. *)
Theorem allowed_origin_first_match config next c :
  let allowOrigins := CORSConfig.AllowOrigins (applyDefaults config) in
  (forall pre o post,
      allowOrigins = (pre ++ o :: post)%list ->
      Forall (fun p => ~ matches (origin c) p) pre ->
      matches (origin c) o ->
      allowedOrigin allowOrigins (origin c) = o)
  /\ (Forall (fun p => ~ matches (origin c) p) allowOrigins ->
      allowedOrigin allowOrigins (origin c) = "")
  /\ (skipperOf config c = false ->
      CORSWithConfig config next c = next (handedOn (applyDefaults config) c)
      /\ resHeader (handedOn (applyDefaults config) c)
           !! HeaderAccessControlAllowOrigin
         = if originSet c
              && negb (String.eqb (allowedOrigin allowOrigins (origin c)) "")
           then Some [allowedOrigin allowOrigins (origin c)]
           else resHeader c !! HeaderAccessControlAllowOrigin).
Proof.
  intros allowOrigins. split; [| split].
  - intros pre o post. apply allowedOrigin_first.
  - apply allowedOrigin_none.
  - intros Hskip. rewrite CORSWithConfig_run, Hskip.
    split; [reflexivity | apply simpleHeader_AllowOrigin].
Qed.

(** With the wildcard as the only allowed origin, every request that is not
    skipped and has an [Origin] header reaches [next] with
    [Access-Control-Allow-Origin: *]. *)
Lemma wildcard_allows_every_origin config c :
  CORSConfig.AllowOrigins (applyDefaults config) = ["*"] ->
  originSet c = true ->
  resHeader (handedOn (applyDefaults config) c)
    !! HeaderAccessControlAllowOrigin
  = Some ["*"].
Proof.
  intros Hany Hset. unfold handedOn, resHeader at 1.
  cbn [Context.withResponseHeader Context.withResponse Context.Response
       Response.withHeader Response.Header].
  now rewrite simpleHeader_AllowOrigin, Hset, Hany.
Qed.

(** C5. A request that is not skipped and has no [Origin] header, or whose
    [Origin] value no entry of [allowOrigins] matches, reaches [next] with
    [Origin] added to [Vary] and no other change: every other response header,
    the [Access-Control-*] ones among them, is as it was.  The method plays no
    part, so this holds for OPTIONS as well. *)
Theorem unmatched_origin_passes_through config next c :
  skipperOf config c = false ->
  originSet c = false
  \/ Forall (fun o => ~ matches (origin c) o)
       (CORSConfig.AllowOrigins (applyDefaults config)) ->
  CORSWithConfig config next c
  = next (Context.withResponseHeader c
            (ResponseHeader.Add (resHeader c) HeaderVary HeaderOrigin))
  /\ forall key,
       key <> HeaderVary ->
       ResponseHeader.Add (resHeader c) HeaderVary HeaderOrigin !! key
       = resHeader c !! key.
Proof.
  intros Hskip Hno. split; [| intros key; apply lookup_Add_ne].
  rewrite CORSWithConfig_run, Hskip. unfold handedOn.
  rewrite simpleHeader_unmatched; [reflexivity |].
  destruct Hno as [Habsent | Hnone]; [now left | right].
  now apply allowedOrigin_none.
Qed.

(** C6. The defaults replace an empty [AllowOrigins] by [["*"]] and an
    empty [AllowMethods] by GET, POST, PUT, DELETE, the lists of
    [DefaultCORSConfig]; the two lists the handler works with are never empty,
    the handler of a configuration being the handler of the configuration with
    its defaults applied. *)
Theorem defaults_fill_empty_lists config :
  CORSConfig.AllowOrigins (applyDefaults config)
  = match CORSConfig.AllowOrigins config with
    | [] => ["*"]
    | _ :: _ => CORSConfig.AllowOrigins config
    end
  /\ CORSConfig.AllowMethods (applyDefaults config)
     = match CORSConfig.AllowMethods config with
       | [] => ["GET"; "POST"; "PUT"; "DELETE"]
       | _ :: _ => CORSConfig.AllowMethods config
       end
  /\ CORSConfig.AllowOrigins (applyDefaults config) <> []
  /\ CORSConfig.AllowMethods (applyDefaults config) <> []
  /\ CORSWithConfig config = CORSWithConfig (applyDefaults config)
  /\ CORSConfig.AllowOrigins DefaultCORSConfig = ["*"]
  /\ CORSConfig.AllowMethods DefaultCORSConfig = ["GET"; "POST"; "PUT"; "DELETE"]
  /\ applyDefaults DefaultCORSConfig = DefaultCORSConfig.
Proof.
  repeat split.
  - cbn. now destruct (CORSConfig.AllowOrigins config).
  - cbn. now destruct (CORSConfig.AllowMethods config).
  - cbn. now destruct (CORSConfig.AllowOrigins config).
  - cbn. now destruct (CORSConfig.AllowMethods config).
  - unfold CORSWithConfig. now rewrite applyDefaults_idem.
Qed.

(** C7. A request the skip predicate accepts reaches [next] in the very
    context the handler was given, whatever its method: no response header is
    added or set. *)
Theorem skipped_request_untouched config next c :
  skipperOf config c = true ->
  CORSWithConfig config next c = next c.
Proof. intros Hskip. now rewrite CORSWithConfig_run, Hskip. Qed.

(** C1. At the preflight request of the claim (OPTIONS, an allowed
    [Origin], [Access-Control-Request-Headers: X-Foo], no [allowHeaders]) the
    handler calls [next], on a context that has [Access-Control-Allow-Origin]
    and [Vary] only: neither [Access-Control-Allow-Methods] nor
    [Access-Control-Allow-Headers] is set, the status code stays 200 and
    nothing is written. *)
Theorem matched_preflight_reaches_next next :
  CORSWithConfig allowA next preflightFromA = next preflightFromA_simple
  /\ CORSWithConfig allowA reached preflightFromA
     = (Returns (Some "reached"), preflightFromA_simple)
  /\ resHeader preflightFromA_simple !! HeaderAccessControlAllowMethods = None
  /\ resHeader preflightFromA_simple !! HeaderAccessControlAllowHeaders = None
  /\ Context.StatusCode preflightFromA_simple = 200
  /\ Response.Committed (Context.Response preflightFromA_simple) = false.
Proof.
  assert (Hsimple : handedOn (applyDefaults allowA) preflightFromA
                    = preflightFromA_simple) by (vm_compute; reflexivity).
  assert (Hrun : forall h, CORSWithConfig allowA h preflightFromA
                           = h preflightFromA_simple).
  { intros h. rewrite CORSWithConfig_run.
    change (skipperOf allowA preflightFromA) with false.
    now rewrite Hsimple. }
  split; [apply Hrun |]. split; [apply Hrun |].
  repeat split; vm_compute; reflexivity.
Qed.

(** The preflight block itself, were it run at that request with the joined
    methods and the maximal age of the configuration, would answer as the
    specification describes. *)
Example preflightRequest_at_A next :
  let config := applyDefaults allowA_maxAge600 in
  run (preflightRequest config
         (Join (CORSConfig.AllowMethods config) ",")
         (Join (CORSConfig.AllowHeaders config) ",")
         (Itoa (CORSConfig.MaxAge config))
         (Context.Request preflightFromA) (originSet preflightFromA)
         (allowedOrigin (CORSConfig.AllowOrigins config)
            (origin preflightFromA))
         next)
    preflightFromA
  = (Returns None, preflightFromA_answered).
Proof. vm_compute. reflexivity. Qed.

(** C8. The handler never touches [Access-Control-Max-Age]: whatever
    [maxAge] is, a request reaches [next] with that header as it was.  So the
    header is absent for [maxAge = 0], and absent as well for [maxAge = 600]
    at the preflight request from an allowed origin. *)
Theorem max_age_never_emitted config next c :
  (exists c',
     CORSWithConfig config next c = next c'
     /\ resHeader c' !! HeaderAccessControlMaxAge
        = resHeader c !! HeaderAccessControlMaxAge)
  /\ CORSWithConfig allowA_maxAge600 next preflightFromA
     = next preflightFromA_simple
  /\ resHeader preflightFromA_simple !! HeaderAccessControlMaxAge = None.
Proof.
  split; [| split].
  - rewrite CORSWithConfig_run. destruct (skipperOf config c).
    + now exists c.
    + exists (handedOn (applyDefaults config) c). split; [reflexivity |].
      now apply simpleHeader_frame.
  - rewrite CORSWithConfig_run.
    change (skipperOf allowA_maxAge600 preflightFromA) with false.
    f_equal.
  - vm_compute. reflexivity.
Qed.

(** C9, amended. A request that is not skipped, has an [Origin] header and
    a matched origin that is not the empty string reaches [next] with
    [Access-Control-Allow-Credentials] set to ["true"] when [allowCredentials]
    holds, and with that header as it was when it does not. *)
Theorem credentials_header_when_allowed config next c :
  skipperOf config c = false ->
  originSet c = true ->
  allowedOrigin (CORSConfig.AllowOrigins (applyDefaults config)) (origin c)
  <> "" ->
  CORSWithConfig config next c = next (handedOn (applyDefaults config) c)
  /\ resHeader (handedOn (applyDefaults config) c)
       !! HeaderAccessControlAllowCredentials
     = if CORSConfig.AllowCredentials config then Some ["true"]
       else resHeader c !! HeaderAccessControlAllowCredentials.
Proof.
  intros Hskip Hset Hallowed. rewrite CORSWithConfig_run, Hskip.
  split; [reflexivity |].
  unfold handedOn, resHeader at 1. cbn [Context.withResponseHeader
    Context.withResponse Context.Response Response.withHeader Response.Header].
  rewrite simpleHeader_AllowCredentials, Hset.
  apply String.eqb_neq in Hallowed. rewrite Hallowed. reflexivity.
Qed.

(** C10, amended. A request that is not skipped and whose [Origin] header
    is present with the empty string as its value, under a configuration
    whose [allowOrigins] has ["*"] with no empty string before it, reaches
    [next] with [Access-Control-Allow-Origin] set to ["*"]. *)
Theorem empty_origin_wildcard_first config next c pre post :
  skipperOf config c = false ->
  originSet c = true ->
  origin c = "" ->
  CORSConfig.AllowOrigins (applyDefaults config) = (pre ++ "*" :: post)%list ->
  Forall (fun p => p <> "") pre ->
  CORSWithConfig config next c = next (handedOn (applyDefaults config) c)
  /\ resHeader (handedOn (applyDefaults config) c)
       !! HeaderAccessControlAllowOrigin
     = Some ["*"].
Proof.
  intros Hskip Hset Hempty Hsplit Hpre. rewrite CORSWithConfig_run, Hskip.
  split; [reflexivity |].
  unfold handedOn, resHeader at 1. cbn [Context.withResponseHeader
    Context.withResponse Context.Response Response.withHeader Response.Header].
  rewrite simpleHeader_AllowOrigin, Hset, Hsplit, Hempty.
  now rewrite allowedOrigin_wildcard_after_nonempty.
Qed.

(** *** Further properties of the handler *)

Lemma simpleHeader_ExposeHeaders allowCredentials exposeHeaders originSet
    allowed h :
  simpleHeader allowCredentials exposeHeaders originSet allowed h
    !! HeaderAccessControlExposeHeaders
  = if originSet && negb (String.eqb allowed "")
       && negb (String.eqb exposeHeaders "")
    then Some [exposeHeaders]
    else h !! HeaderAccessControlExposeHeaders.
Proof.
  unfold simpleHeader.
  destruct originSet, (String.eqb allowed ""), allowCredentials,
    (negb (String.eqb exposeHeaders "")); cbn [negb orb andb]; now frame_lookup.
Qed.

Lemma resHeader_handedOn config c :
  resHeader (handedOn config c)
  = simpleHeader (CORSConfig.AllowCredentials config)
      (Join (CORSConfig.ExposeHeaders config) ",") (originSet c)
      (allowedOrigin (CORSConfig.AllowOrigins config) (origin c))
      (resHeader c).
Proof. reflexivity. Qed.

(** The matched origin is the empty string or an entry of the list that is
    ["*"] or the origin value. *)
Lemma allowedOrigin_cases allowOrigins origin :
  allowedOrigin allowOrigins origin = ""
  \/ (In (allowedOrigin allowOrigins origin) allowOrigins
      /\ matches origin (allowedOrigin allowOrigins origin)).
Proof.
  induction allowOrigins as [| o rest IH]; cbn; [now left |].
  destruct (String.eqb o "*" || String.eqb o origin) eqn:E.
  - right. split; [now left | now apply matches_eqb].
  - destruct IH as [IH | [Hin Hm]]; [now left | right; split; auto].
Qed.

(** X1. A request that is not skipped reaches [next] with
    [Access-Control-Expose-Headers] set to the comma-joined [ExposeHeaders]
    when the [Origin] header is present, the matched origin is not empty and
    the joined string is not empty; in every other case that header is as it
    was. *)
Theorem expose_headers_when_allowed config next c :
  skipperOf config c = false ->
  let exposeHeaders := Join (CORSConfig.ExposeHeaders config) "," in
  let allowed :=
    allowedOrigin (CORSConfig.AllowOrigins (applyDefaults config)) (origin c) in
  CORSWithConfig config next c = next (handedOn (applyDefaults config) c)
  /\ resHeader (handedOn (applyDefaults config) c)
       !! HeaderAccessControlExposeHeaders
     = if originSet c && negb (String.eqb allowed "")
          && negb (String.eqb exposeHeaders "")
       then Some [exposeHeaders]
       else resHeader c !! HeaderAccessControlExposeHeaders.
Proof.
  intros Hskip exposeHeaders allowed. rewrite CORSWithConfig_run, Hskip.
  split; [reflexivity |].
  rewrite resHeader_handedOn. apply simpleHeader_ExposeHeaders.
Qed.

(** X2. Whatever the configuration and the request, the handler leaves
    every response header alone but [Vary], [Access-Control-Allow-Origin],
    [Access-Control-Allow-Credentials] and [Access-Control-Expose-Headers]:
    [next] finds any other header as the handler found it. *)
Theorem other_headers_untouched config next c key :
  key <> HeaderVary ->
  key <> HeaderAccessControlAllowOrigin ->
  key <> HeaderAccessControlAllowCredentials ->
  key <> HeaderAccessControlExposeHeaders ->
  exists c',
    CORSWithConfig config next c = next c'
    /\ resHeader c' !! key = resHeader c !! key.
Proof.
  intros Hv Ho Hc He. rewrite CORSWithConfig_run.
  destruct (skipperOf config c).
  - now exists c.
  - exists (handedOn (applyDefaults config) c). split; [reflexivity |].
    rewrite resHeader_handedOn. now apply simpleHeader_frame.
Qed.

(** X3. A configuration whose [Skipper] is nil gives a handler that never
    calls a nil function: it skips the requests [defaultSkipper] accepts and
    handles the others. *)
Theorem nil_skipper_is_default config next c :
  CORSConfig.Skipper config = None ->
  CORSWithConfig config next c
  = if defaultSkipper c then next c
    else next (handedOn (applyDefaults config) c).
Proof.
  intros Hnil. rewrite CORSWithConfig_run. unfold skipperOf.
  now rewrite Hnil.
Qed.

(** X4. The gas of [CORS()], for a request [defaultSkipper] does not skip
    and that has an [Origin] header, whatever its value: [next] receives the
    response with [Origin] added to [Vary] and [Access-Control-Allow-Origin]
    set to ["*"], and with no other change. *)
Theorem CORS_allows_every_origin next c :
  defaultSkipper c = false ->
  originSet c = true ->
  CORS next c
  = next (Context.withResponseHeader c
            (ResponseHeader.Set_
               (ResponseHeader.Add (resHeader c) HeaderVary HeaderOrigin)
               HeaderAccessControlAllowOrigin "*")).
Proof.
  intros Hskip Hset. unfold CORS. rewrite CORSWithConfig_run.
  change (skipperOf DefaultCORSConfig c) with (defaultSkipper c).
  rewrite Hskip. unfold handedOn. now rewrite Hset.
Qed.

(** X5. The defaults leave a configuration as it is when its [Skipper] is
    set and its [AllowOrigins] and [AllowMethods] are not empty: a list that
    was supplied is never replaced or extended. *)
Theorem applyDefaults_keeps_supplied config s :
  CORSConfig.Skipper config = Some s ->
  CORSConfig.AllowOrigins config <> [] ->
  CORSConfig.AllowMethods config <> [] ->
  applyDefaults config = config.
Proof.
  destruct config as [sk ao am ah ac eh ma]; cbn.
  intros -> Hao Ham. unfold applyDefaults; cbn.
  destruct ao; [contradiction |]. destruct am; [contradiction |]. reflexivity.
Qed.

(** X6. The handler sets [Access-Control-Allow-Origin] to nothing but
    ["*"] or the value of the request's own [Origin] header, and to the latter
    only when that value is an entry of [AllowOrigins]: an origin that is not
    configured is never reflected. *)
Theorem allow_origin_never_reflects_unlisted config next c :
  skipperOf config c = false ->
  CORSWithConfig config next c = next (handedOn (applyDefaults config) c)
  /\ (resHeader (handedOn (applyDefaults config) c)
        !! HeaderAccessControlAllowOrigin
      = resHeader c !! HeaderAccessControlAllowOrigin
      \/ resHeader (handedOn (applyDefaults config) c)
           !! HeaderAccessControlAllowOrigin
         = Some ["*"]
      \/ (resHeader (handedOn (applyDefaults config) c)
            !! HeaderAccessControlAllowOrigin
          = Some [origin c]
          /\ In (origin c) (CORSConfig.AllowOrigins (applyDefaults config)))).
Proof.
  intros Hskip. rewrite CORSWithConfig_run, Hskip. split; [reflexivity |].
  rewrite resHeader_handedOn, simpleHeader_AllowOrigin.
  destruct (originSet c); cbn [andb]; [| now left].
  destruct (allowedOrigin_cases
              (CORSConfig.AllowOrigins (applyDefaults config)) (origin c))
    as [Hnone | [Hin [Hany | Hsame]]].
  - rewrite Hnone. now left.
  - rewrite Hany. right. now left.
  - rewrite Hsame in *.
    destruct (String.eqb (origin c) ""); cbn [negb]; [now left |].
    right. right. now split.
Qed.

Lemma simpleHeader_twice_other allowCredentials exposeHeaders originSet
    allowed h key :
  key <> HeaderVary ->
  simpleHeader allowCredentials exposeHeaders originSet allowed
    (simpleHeader allowCredentials exposeHeaders originSet allowed h) !! key
  = simpleHeader allowCredentials exposeHeaders originSet allowed h !! key.
Proof.
  intros Hv. unfold simpleHeader.
  destruct (negb originSet || String.eqb allowed ""), allowCredentials,
    (negb (String.eqb exposeHeaders ""));
    destruct (decide (key = HeaderAccessControlAllowOrigin)) as [Ho | Ho];
    destruct (decide (key = HeaderAccessControlAllowCredentials)) as [Hc | Hc];
    destruct (decide (key = HeaderAccessControlExposeHeaders)) as [He | He];
    try (rewrite Ho in *); try (rewrite Hc in *); try (rewrite He in *);
    try discriminate; now frame_lookup.
Qed.

(** X7. The gas applied twice, for a request that neither pass skips:
    [Origin] is in [Vary] once more for each pass, while every other response
    header is what a single pass leaves, the [Access-Control-*] headers being
    set and not added. *)
Theorem gas_applied_twice config next c :
  let once := handedOn (applyDefaults config) c in
  let twice := handedOn (applyDefaults config) once in
  skipperOf config c = false ->
  skipperOf config once = false ->
  CORSWithConfig config (CORSWithConfig config next) c = next twice
  /\ resHeader twice !! HeaderVary
     = Some (default [] (resHeader c !! HeaderVary)
             ++ [HeaderOrigin; HeaderOrigin])%list
  /\ forall key,
       key <> HeaderVary ->
       resHeader twice !! key = resHeader once !! key.
Proof.
  intros once twice Hskip Honce.
  rewrite CORSWithConfig_run, Hskip.
  rewrite CORSWithConfig_run. fold once. rewrite Honce.
  split; [reflexivity |]. unfold twice. rewrite resHeader_handedOn.
  change (originSet once) with (originSet c).
  change (origin once) with (origin c).
  unfold once at 1 3. rewrite resHeader_handedOn. split.
  - rewrite !simpleHeader_Vary. unfold default at 1. cbn [from_option id].
    now rewrite <- app_assoc.
  - intros key Hv. unfold once. rewrite resHeader_handedOn.
    now apply simpleHeader_twice_other.
Qed.

(** *** The preflight block *)

(** The preflight block in closed form: with no origin to allow it leaves
    through [next], otherwise through [c.NoContent()] with the status code
    204. *)
Lemma preflightRequest_run config allowMethods allowHeaders maxAge req
    originSet allowed next c :
  run (preflightRequest config allowMethods allowHeaders maxAge req originSet
         allowed next) c
  = if negb originSet || String.eqb allowed ""
    then next (Context.withResponseHeader c (preflightVary (resHeader c)))
    else NoContent
           (Context.withStatusCode
              (Context.withResponseHeader c
                 (preflightHeader config allowMethods allowHeaders maxAge req
                    allowed (resHeader c)))
              StatusNoContent).
Proof.
  unfold run, preflightRequest, preflightHeader, preflightVary, bind, when,
    resHeaderAdd, resHeaderSet, setStatusCode.
  destruct (negb originSet || String.eqb allowed ""); cbn.
  - unfold return_. now destruct (next _).
  - destruct (CORSConfig.AllowCredentials config),
      (negb (String.eqb allowHeaders "")),
      (negb (String.eqb
               (RequestHeader.Get (Request.Header req)
                  HeaderAccessControlRequestHeaders) "")),
      (CORSConfig.MaxAge config >? 0); reflexivity.
Qed.

Lemma lookup_preflightVary h :
  preflightVary h !! HeaderVary
  = Some (default [] (h !! HeaderVary)
          ++ [HeaderOrigin; HeaderAccessControlRequestMethod;
              HeaderAccessControlRequestHeaders])%list.
Proof.
  unfold preflightVary. rewrite !lookup_Add_eq.
  unfold default at 1 2. cbn [from_option id]. now rewrite <- !app_assoc.
Qed.

Lemma lookup_preflightVary_ne h key :
  key <> HeaderVary -> preflightVary h !! key = h !! key.
Proof. intros Hv. unfold preflightVary. now frame_lookup. Qed.

Lemma resHeader_NoContent c h n :
  resHeader
    (snd (NoContent
            (Context.withStatusCode (Context.withResponseHeader c h) n)))
  = h.
Proof. reflexivity. Qed.

Lemma matched_condition originSet allowed :
  originSet = true -> allowed <> "" ->
  negb originSet || String.eqb allowed "" = false.
Proof. intros -> Hne. apply String.eqb_neq in Hne. now rewrite Hne. Qed.

(** X8. The preflight block, run for a request without [Origin] header or
    with an empty matched origin, leaves through [next]: on the way it adds
    [Origin], [Access-Control-Request-Method] and
    [Access-Control-Request-Headers] to [Vary] and changes no other header. *)
Theorem preflight_unmatched_passes_through config allowMethods allowHeaders
    maxAge req originSet allowed next c :
  originSet = false \/ allowed = "" ->
  run (preflightRequest config allowMethods allowHeaders maxAge req originSet
         allowed next) c
  = next (Context.withResponseHeader c (preflightVary (resHeader c)))
  /\ preflightVary (resHeader c) !! HeaderVary
     = Some (default [] (resHeader c !! HeaderVary)
             ++ [HeaderOrigin; HeaderAccessControlRequestMethod;
                 HeaderAccessControlRequestHeaders])%list
  /\ forall key,
       key <> HeaderVary ->
       preflightVary (resHeader c) !! key = resHeader c !! key.
Proof.
  intros Hno. split; [| split].
  - rewrite preflightRequest_run.
    destruct Hno as [-> | ->]; [reflexivity | now rewrite orb_true_r].
  - apply lookup_preflightVary.
  - intros key. apply lookup_preflightVary_ne.
Qed.

(** X9. The preflight block, run for a request with an [Origin] header and
    a matched origin that is not empty, never calls [next]: whatever [next]
    is, it returns nil with the status code 204 stored in the context and the
    response written with that status and an empty body, the request being
    left as it was; [Access-Control-Allow-Origin] is the matched origin,
    [Access-Control-Allow-Methods] the joined methods, and
    [Access-Control-Allow-Credentials] is ["true"] when credentials are
    allowed and untouched when they are not. *)
Theorem preflight_matched_ends_chain config allowMethods allowHeaders maxAge
    req allowed next c :
  allowed <> "" ->
  let answer :=
    run (preflightRequest config allowMethods allowHeaders maxAge req true
           allowed next) c in
  (forall next',
      run (preflightRequest config allowMethods allowHeaders maxAge req true
             allowed next') c
      = answer)
  /\ fst answer = Returns None
  /\ Context.StatusCode (snd answer) = 204
  /\ Context.Request (snd answer) = Context.Request c
  /\ Response.Status (Context.Response (snd answer)) = 204
  /\ Response.Body (Context.Response (snd answer)) = ""
  /\ Response.Committed (Context.Response (snd answer)) = true
  /\ resHeader (snd answer) !! HeaderAccessControlAllowOrigin = Some [allowed]
  /\ resHeader (snd answer) !! HeaderAccessControlAllowMethods
     = Some [allowMethods]
  /\ resHeader (snd answer) !! HeaderAccessControlAllowCredentials
     = if CORSConfig.AllowCredentials config then Some ["true"]
       else resHeader c !! HeaderAccessControlAllowCredentials.
Proof.
  intros Hallowed answer.
  assert (Hrun : forall h,
             run (preflightRequest config allowMethods allowHeaders maxAge req
                    true allowed h) c
             = NoContent
                 (Context.withStatusCode
                    (Context.withResponseHeader c
                       (preflightHeader config allowMethods allowHeaders
                          maxAge req allowed (resHeader c)))
                    StatusNoContent)).
  { intros h. rewrite preflightRequest_run.
    now rewrite matched_condition. }
  split; [intros next'; unfold answer; now rewrite !Hrun |].
  unfold answer. rewrite Hrun.
  repeat (split; [reflexivity |]).
  rewrite !resHeader_NoContent.
  unfold preflightHeader, preflightVary.
  destruct (CORSConfig.AllowCredentials config),
    (negb (String.eqb allowHeaders "")),
    (negb (String.eqb
             (RequestHeader.Get (Request.Header req)
                HeaderAccessControlRequestHeaders) "")),
    (CORSConfig.MaxAge config >? 0); repeat split; now frame_lookup.
Qed.

(** X10. The preflight block, run for a request with an [Origin] header and
    a matched origin that is not empty, sets [Access-Control-Allow-Headers]
    to the joined [AllowHeaders] when that string is not empty; otherwise to
    the value of the request's [Access-Control-Request-Headers] when that is
    not empty; otherwise it leaves the header as it was. *)
Theorem preflight_allow_headers config allowMethods allowHeaders maxAge req
    allowed next c :
  allowed <> "" ->
  let requested :=
    RequestHeader.Get (Request.Header req) HeaderAccessControlRequestHeaders in
  resHeader
    (snd (run (preflightRequest config allowMethods allowHeaders maxAge req
                 true allowed next) c))
    !! HeaderAccessControlAllowHeaders
  = if negb (String.eqb allowHeaders "") then Some [allowHeaders]
    else if negb (String.eqb requested "") then Some [requested]
         else resHeader c !! HeaderAccessControlAllowHeaders.
Proof.
  intros Hallowed requested. rewrite preflightRequest_run.
  rewrite matched_condition by easy. rewrite resHeader_NoContent.
  unfold preflightHeader, preflightVary. fold requested.
  destruct (CORSConfig.AllowCredentials config),
    (negb (String.eqb allowHeaders "")),
    (negb (String.eqb requested "")),
    (CORSConfig.MaxAge config >? 0); now frame_lookup.
Qed.

(** X11. The preflight block, run for a request with an [Origin] header and
    a matched origin that is not empty, sets [Access-Control-Max-Age] to the
    string [maxAge] when [MaxAge] is positive, and leaves the header as it was
    when [MaxAge] is zero or negative. *)
Theorem preflight_max_age config allowMethods allowHeaders maxAge req allowed
    next c :
  allowed <> "" ->
  resHeader
    (snd (run (preflightRequest config allowMethods allowHeaders maxAge req
                 true allowed next) c))
    !! HeaderAccessControlMaxAge
  = if CORSConfig.MaxAge config >? 0 then Some [maxAge]
    else resHeader c !! HeaderAccessControlMaxAge.
Proof.
  intros Hallowed. rewrite preflightRequest_run.
  rewrite matched_condition by easy. rewrite resHeader_NoContent.
  unfold preflightHeader, preflightVary.
  destruct (CORSConfig.AllowCredentials config),
    (negb (String.eqb allowHeaders "")),
    (negb (String.eqb
             (RequestHeader.Get (Request.Header req)
                HeaderAccessControlRequestHeaders) "")),
    (CORSConfig.MaxAge config >? 0); now frame_lookup.
Qed.

End CORS.

(** ** The properties at concrete requests *)

(** C3 at a GET request without [Origin] header. *)
Lemma vary_origin_always_added_witness :
  skipperOf neverSkip allowA getNoOrigin = false
  /\ CORSWithConfig neverSkip allowA reached getNoOrigin
     = reached (handedOn (applyDefaults neverSkip allowA) getNoOrigin)
  /\ resHeader (handedOn (applyDefaults neverSkip allowA) getNoOrigin)
       !! HeaderVary
     = Some ["Origin"].
Proof.
  split; [reflexivity |].
  exact (vary_origin_always_added neverSkip allowA reached getNoOrigin
           eq_refl).
Defined.

(** C4 at a GET request from [https://a.example]: the entry that follows
    [https://b.example] is the match and the value set, not the ["*"] behind
    it; with [https://b.example] alone nothing matches. *)
Lemma allowed_origin_first_match_witness :
  allowedOrigin ["https://b.example"; "https://a.example"; "*"]
    "https://a.example"
  = "https://a.example"
  /\ allowedOrigin ["https://b.example"] "https://a.example" = ""
  /\ CORSWithConfig neverSkip allowB_A_any reached getFromA
     = reached (handedOn (applyDefaults neverSkip allowB_A_any) getFromA)
  /\ resHeader (handedOn (applyDefaults neverSkip allowB_A_any) getFromA)
       !! HeaderAccessControlAllowOrigin
     = Some ["https://a.example"].
Proof.
  destruct (allowed_origin_first_match neverSkip allowB_A_any reached getFromA)
    as (Hfirst & _ & Hset).
  destruct (allowed_origin_first_match neverSkip allowB reached getFromA)
    as (_ & Hnone & _).
  split; [| split].
  - apply (Hfirst ["https://b.example"] "https://a.example" ["*"]).
    + reflexivity.
    + constructor; [| constructor]. intros [H | H]; discriminate H.
    + right. reflexivity.
  - apply Hnone. constructor; [| constructor].
    intros [H | H]; discriminate H.
  - exact (Hset eq_refl).
Defined.

(** C5 at an OPTIONS request from [https://b.example], which is not
    allowed. *)
Lemma unmatched_origin_passes_through_witness :
  skipperOf neverSkip allowA preflightFromB = false
  /\ Forall (fun o => ~ matches (origin preflightFromB) o)
       (CORSConfig.AllowOrigins (applyDefaults neverSkip allowA))
  /\ CORSWithConfig neverSkip allowA reached preflightFromB
     = reached (Context.withResponseHeader preflightFromB
                  (ResponseHeader.Add (resHeader preflightFromB)
                     HeaderVary HeaderOrigin))
  /\ forall key,
       key <> HeaderVary ->
       ResponseHeader.Add (resHeader preflightFromB) HeaderVary HeaderOrigin
         !! key
       = resHeader preflightFromB !! key.
Proof.
  assert (Hnone : Forall (fun o => ~ matches (origin preflightFromB) o)
                    (CORSConfig.AllowOrigins (applyDefaults neverSkip allowA))).
  { constructor; [| constructor]. intros [H | H]; discriminate H. }
  split; [reflexivity |]. split; [exact Hnone |].
  exact (unmatched_origin_passes_through neverSkip allowA reached
           preflightFromB eq_refl (or_intror Hnone)).
Defined.

(** C7 at an OPTIONS request, with a predicate that skips every request. *)
Lemma skipped_request_untouched_witness :
  skipperOf neverSkip skipAll preflightFromA = true
  /\ CORSWithConfig neverSkip skipAll reached preflightFromA
     = reached preflightFromA.
Proof.
  split; [reflexivity |].
  exact (skipped_request_untouched neverSkip skipAll reached preflightFromA
           eq_refl).
Defined.

(** C9, amended, at a GET request from an allowed origin, credentials
    allowed. *)
Lemma credentials_header_when_allowed_witness :
  skipperOf neverSkip allowA_credentials getFromA = false
  /\ originSet getFromA = true
  /\ allowedOrigin
       (CORSConfig.AllowOrigins (applyDefaults neverSkip allowA_credentials))
       (origin getFromA)
     <> ""
  /\ CORSWithConfig neverSkip allowA_credentials reached getFromA
     = reached (handedOn (applyDefaults neverSkip allowA_credentials) getFromA)
  /\ resHeader (handedOn (applyDefaults neverSkip allowA_credentials) getFromA)
       !! HeaderAccessControlAllowCredentials
     = Some ["true"].
Proof.
  assert (Hallowed :
            allowedOrigin
              (CORSConfig.AllowOrigins
                 (applyDefaults neverSkip allowA_credentials))
              (origin getFromA)
            <> "").
  { vm_compute. discriminate. }
  split; [reflexivity |]. split; [reflexivity |]. split; [exact Hallowed |].
  exact (credentials_header_when_allowed neverSkip allowA_credentials reached
           getFromA eq_refl eq_refl Hallowed).
Defined.

(** C9 as stated fails where the matching entry is the empty string: with
    [allowOrigins = [""]] and credentials allowed, a request whose [Origin]
    header is present and empty matches that entry, and yet it reaches [next]
    with [Vary] alone, [Access-Control-Allow-Credentials] unset. *)
Lemma credentials_empty_entry_counterexample :
  (skipperOf neverSkip allowEmpty_credentials getEmptyOrigin = false
   /\ originSet getEmptyOrigin = true
   /\ Exists (matches (origin getEmptyOrigin))
        (CORSConfig.AllowOrigins
           (applyDefaults neverSkip allowEmpty_credentials))
   /\ CORSConfig.AllowCredentials allowEmpty_credentials = true
   /\ CORSWithConfig neverSkip allowEmpty_credentials reached getEmptyOrigin
      = reached (Context.withResponseHeader getEmptyOrigin
                   (<[HeaderVary := ["Origin"]]> ∅))
   /\ (<[HeaderVary := ["Origin"]]> ∅ : ResponseHeader.t)
        !! HeaderAccessControlAllowCredentials
      = None)
  /\ ~ (forall (config : CORSConfig.t) (next : HandlerFunc) (c : Context.t),
           skipperOf neverSkip config c = false ->
           originSet c = true ->
           Exists (matches (origin c))
             (CORSConfig.AllowOrigins (applyDefaults neverSkip config)) ->
           CORSConfig.AllowCredentials config = true ->
           exists c',
             CORSWithConfig neverSkip config next c = next c'
             /\ resHeader c' !! HeaderAccessControlAllowCredentials
                = Some ["true"]).
Proof.
  assert (Hmatch : Exists (matches (origin getEmptyOrigin))
                     (CORSConfig.AllowOrigins
                        (applyDefaults neverSkip allowEmpty_credentials))).
  { constructor. right. reflexivity. }
  assert (Hrun : CORSWithConfig neverSkip allowEmpty_credentials reached
                   getEmptyOrigin
                 = reached (Context.withResponseHeader getEmptyOrigin
                              (<[HeaderVary := ["Origin"]]> ∅))).
  { vm_compute. reflexivity. }
  split.
  - repeat split; try reflexivity; assumption.
  - intros Hclaim.
    destruct (Hclaim allowEmpty_credentials reached getEmptyOrigin
                eq_refl eq_refl Hmatch eq_refl) as (c' & Heq & Hcred).
    rewrite Hrun in Heq. unfold reached in Heq.
    injection Heq as <-. vm_compute in Hcred. discriminate Hcred.
Qed.

(** C10, amended, at a GET request whose [Origin] header is present and
    empty, the wildcard behind a non-empty entry. *)
Lemma empty_origin_wildcard_first_witness :
  skipperOf neverSkip allowA_any getEmptyOrigin = false
  /\ originSet getEmptyOrigin = true
  /\ origin getEmptyOrigin = ""
  /\ CORSWithConfig neverSkip allowA_any reached getEmptyOrigin
     = reached (handedOn (applyDefaults neverSkip allowA_any) getEmptyOrigin)
  /\ resHeader (handedOn (applyDefaults neverSkip allowA_any) getEmptyOrigin)
       !! HeaderAccessControlAllowOrigin
     = Some ["*"].
Proof.
  split; [reflexivity |]. split; [reflexivity |]. split; [reflexivity |].
  apply (empty_origin_wildcard_first neverSkip allowA_any reached
           getEmptyOrigin ["https://a.example"] []).
  - reflexivity.
  - reflexivity.
  - reflexivity.
  - reflexivity.
  - constructor; [discriminate | constructor].
Defined.

(** C10 as stated fails where an empty string comes before the wildcard:
    with [allowOrigins = [""; "*"]] the empty [Origin] value equals the first
    entry, the matched origin is the empty string, and the request reaches
    [next] with [Vary] alone, [Access-Control-Allow-Origin] unset. *)
Lemma empty_origin_wildcard_counterexample :
  (skipperOf neverSkip allowEmpty_any getEmptyOrigin = false
   /\ originSet getEmptyOrigin = true
   /\ origin getEmptyOrigin = ""
   /\ In "*" (CORSConfig.AllowOrigins (applyDefaults neverSkip allowEmpty_any))
   /\ allowedOrigin
        (CORSConfig.AllowOrigins (applyDefaults neverSkip allowEmpty_any))
        (origin getEmptyOrigin)
      = ""
   /\ CORSWithConfig neverSkip allowEmpty_any reached getEmptyOrigin
      = reached (Context.withResponseHeader getEmptyOrigin
                   (<[HeaderVary := ["Origin"]]> ∅))
   /\ (<[HeaderVary := ["Origin"]]> ∅ : ResponseHeader.t)
        !! HeaderAccessControlAllowOrigin
      = None)
  /\ ~ (forall (config : CORSConfig.t) (next : HandlerFunc) (c : Context.t),
           skipperOf neverSkip config c = false ->
           originSet c = true ->
           origin c = "" ->
           In "*" (CORSConfig.AllowOrigins (applyDefaults neverSkip config)) ->
           exists c',
             CORSWithConfig neverSkip config next c = next c'
             /\ resHeader c' !! HeaderAccessControlAllowOrigin = Some ["*"]).
Proof.
  assert (Hin : In "*" (CORSConfig.AllowOrigins
                          (applyDefaults neverSkip allowEmpty_any))).
  { right. left. reflexivity. }
  assert (Hrun : CORSWithConfig neverSkip allowEmpty_any reached getEmptyOrigin
                 = reached (Context.withResponseHeader getEmptyOrigin
                              (<[HeaderVary := ["Origin"]]> ∅))).
  { vm_compute. reflexivity. }
  split.
  - repeat split; try reflexivity; assumption.
  - intros Hclaim.
    destruct (Hclaim allowEmpty_any reached getEmptyOrigin eq_refl eq_refl
                eq_refl Hin) as (c' & Heq & Horigin).
    rewrite Hrun in Heq. unfold reached in Heq.
    injection Heq as <-. vm_compute in Horigin. discriminate Horigin.
Qed.

(** ** Form parameters *)

Lemma lookup_addPostArg k v (params : gmap string (list string)) key :
  addPostArg k v params !! key
  = if String.eqb k key then Some (default [] (params !! key) ++ [v])%list
    else params !! key.
Proof.
  unfold addPostArg. destruct (String.eqb k key) eqn:E.
  - apply String.eqb_eq in E as ->.
    destruct (params !! key); now rewrite lookup_insert_eq.
  - apply String.eqb_neq in E.
    destruct (params !! k); now rewrite lookup_insert_ne.
Qed.

(** Visiting the arguments from any map: the values of a key are appended to
    those the map has for it. *)
Lemma lookup_VisitAll args (params : gmap string (list string)) key :
  VisitAll args addPostArg params !! key
  = match valuesOf key args with
    | [] => params !! key
    | _ :: _ => Some (default [] (params !! key) ++ valuesOf key args)%list
    end.
Proof.
  unfold VisitAll. revert params.
  induction args as [| [k v] rest IH]; intros params; cbn; [reflexivity |].
  rewrite IH, lookup_addPostArg. destruct (String.eqb k key); cbn.
  - rewrite <- app_assoc. cbn. now destruct (valuesOf key rest).
  - reflexivity.
Qed.

Lemma lookup_addFormValue k v (params : gmap string (list string)) key :
  addFormValue k v params !! key
  = if String.eqb k key && (0 <? length v)%nat then Some v
    else params !! key.
Proof.
  unfold addFormValue.
  destruct (0 <? length v)%nat, (String.eqb k key) eqn:E; cbn [andb];
    try reflexivity.
  - apply String.eqb_eq in E as ->. apply lookup_insert_eq.
  - apply String.eqb_neq in E. now apply lookup_insert_ne.
Qed.

(** X12. Without a multipart form, the parameters map a key to the values
    posted under it, in the order they were posted and with repetitions; a
    key that was not posted is not in the map. *)
Theorem FormParams_groups_post_args postArgs key :
  FormParams ErrNoMultipartForm postArgs !! key
  = match valuesOf key postArgs with
    | [] => None
    | v :: vs => Some (v :: vs)
    end.
Proof.
  unfold FormParams. rewrite lookup_VisitAll, lookup_empty.
  now destruct (valuesOf key postArgs).
Qed.

(** The loop over the values of a multipart form keeps the entries whose
    list of values is not empty. *)
Lemma lookup_map_fold_addFormValue (Value : gmap string (list string)) key :
  map_fold addFormValue ∅ Value !! key
  = match Value !! key with
    | Some (v :: vs) => Some (v :: vs)
    | _ => None
    end.
Proof.
  apply (map_fold_weak_ind
           (fun (params Value : gmap string (list string)) =>
              params !! key
              = match Value !! key with
                | Some (v :: vs) => Some (v :: vs)
                | _ => None
                end)).
  - now rewrite !lookup_empty.
  - intros k v m params Hfresh IH. rewrite lookup_addFormValue.
    destruct (String.eqb k key) eqn:E; cbn [andb].
    + apply String.eqb_eq in E as ->. rewrite lookup_insert_eq.
      destruct v; cbn; [| reflexivity]. now rewrite IH, Hfresh.
    + apply String.eqb_neq in E. now rewrite lookup_insert_ne.
Qed.

(** X13. With a multipart form, the parameters are the entries of the form
    whose list of values is not empty; the posted arguments are not read. *)
Theorem FormParams_multipart_nonempty_values Value postArgs key :
  FormParams (Form Value) postArgs !! key
  = match Value !! key with
    | Some (v :: vs) => Some (v :: vs)
    | _ => None
    end.
Proof. unfold FormParams. apply lookup_map_fold_addFormValue. Qed.

(** X14. Whatever [MultipartForm()] returned, no key of the parameters has
    an empty list of values: a key is in the map with one value at least. *)
Theorem FormParams_no_empty_values mf postArgs key vs :
  FormParams mf postArgs !! key = Some vs ->
  vs <> [].
Proof.
  destruct mf as [Value | |]; unfold FormParams.
  - rewrite lookup_map_fold_addFormValue.
    destruct (Value !! key) as [[| v l] |]; cbn; congruence.
  - rewrite lookup_VisitAll, lookup_empty.
    destruct (valuesOf key postArgs); cbn; congruence.
  - now rewrite lookup_empty.
Qed.




(** X14 at three posted arguments, two of them under the key [a]. *)
Lemma FormParams_no_empty_values_witness :
  FormParams ErrNoMultipartForm [("a", "1"); ("b", "2"); ("a", "3")] !! "a"
  = Some ["1"; "3"]
  /\ ["1"; "3"] <> [].
Proof.
  assert (Hlookup :
            FormParams ErrNoMultipartForm [("a", "1"); ("b", "2"); ("a", "3")]
              !! "a"
            = Some ["1"; "3"]) by (vm_compute; reflexivity).
  split; [exact Hlookup |].
  exact (FormParams_no_empty_values ErrNoMultipartForm
           [("a", "1"); ("b", "2"); ("a", "3")] "a" ["1"; "3"] Hlookup).
Defined.

(** ** The further properties at concrete requests *)

(** X1 at a GET request from [https://a.example], two headers exposed. *)
Lemma expose_headers_when_allowed_witness :
  skipperOf neverSkip allowA_exposing getFromA = false
  /\ CORSWithConfig neverSkip allowA_exposing reached getFromA
     = reached (handedOn (applyDefaults neverSkip allowA_exposing) getFromA)
  /\ resHeader (handedOn (applyDefaults neverSkip allowA_exposing) getFromA)
       !! HeaderAccessControlExposeHeaders
     = Some ["X-Request-Id,X-Total"].
Proof.
  split; [reflexivity |].
  exact (expose_headers_when_allowed neverSkip allowA_exposing reached
           getFromA eq_refl).
Defined.

(** X2 at [Access-Control-Allow-Methods]. *)
Lemma other_headers_untouched_witness :
  exists c',
    CORSWithConfig neverSkip allowA reached getFromA = reached c'
    /\ resHeader c' !! HeaderAccessControlAllowMethods
       = resHeader getFromA !! HeaderAccessControlAllowMethods.
Proof.
  apply (other_headers_untouched neverSkip allowA reached getFromA
           HeaderAccessControlAllowMethods); discriminate.
Defined.

(** X3 at the configuration with every field unset, where the default
    predicate skips nothing. *)
Lemma nil_skipper_is_default_witness :
  CORSConfig.Skipper unset = None
  /\ CORSWithConfig neverSkip unset reached getFromA
     = reached (handedOn (applyDefaults neverSkip unset) getFromA).
Proof.
  split; [reflexivity |].
  exact (nil_skipper_is_default neverSkip unset reached getFromA eq_refl).
Defined.

(** X4 at a GET request from [https://a.example]. *)
Lemma CORS_allows_every_origin_witness :
  CORS neverSkip reached getFromA
  = reached (Context.withResponseHeader getFromA
               (ResponseHeader.Set_
                  (ResponseHeader.Add (resHeader getFromA)
                     HeaderVary HeaderOrigin)
                  HeaderAccessControlAllowOrigin "*")).
Proof.
  exact (CORS_allows_every_origin neverSkip reached getFromA eq_refl eq_refl).
Defined.

(** X5 at a configuration with a skipper, one origin and two methods. *)
Lemma applyDefaults_keeps_supplied_witness :
  applyDefaults neverSkip allowA_headers = allowA_headers.
Proof.
  apply (applyDefaults_keeps_supplied neverSkip allowA_headers neverSkip).
  - reflexivity.
  - discriminate.
  - discriminate.
Defined.

(** X6 at a GET request from [https://a.example], an allowed origin. *)
Lemma allow_origin_never_reflects_unlisted_witness :
  skipperOf neverSkip allowA getFromA = false
  /\ CORSWithConfig neverSkip allowA reached getFromA
     = reached (handedOn (applyDefaults neverSkip allowA) getFromA)
  /\ resHeader (handedOn (applyDefaults neverSkip allowA) getFromA)
       !! HeaderAccessControlAllowOrigin
     = Some [origin getFromA]
  /\ In (origin getFromA)
       (CORSConfig.AllowOrigins (applyDefaults neverSkip allowA)).
Proof.
  split; [reflexivity |].
  destruct (allow_origin_never_reflects_unlisted neverSkip allowA reached
              getFromA eq_refl) as [Hrun _].
  split; [exact Hrun |].
  split; [vm_compute; reflexivity | left; reflexivity].
Defined.

(** X7 at a GET request from [https://a.example]. *)
Lemma gas_applied_twice_witness :
  CORSWithConfig neverSkip allowA (CORSWithConfig neverSkip allowA reached)
    getFromA
  = reached (handedOn (applyDefaults neverSkip allowA)
               (handedOn (applyDefaults neverSkip allowA) getFromA))
  /\ resHeader (handedOn (applyDefaults neverSkip allowA)
                  (handedOn (applyDefaults neverSkip allowA) getFromA))
       !! HeaderVary
     = Some ["Origin"; "Origin"]
  /\ forall key,
       key <> HeaderVary ->
       resHeader (handedOn (applyDefaults neverSkip allowA)
                    (handedOn (applyDefaults neverSkip allowA) getFromA))
         !! key
       = resHeader (handedOn (applyDefaults neverSkip allowA) getFromA) !! key.
Proof.
  exact (gas_applied_twice neverSkip allowA reached getFromA eq_refl eq_refl).
Defined.

(** X8 at an OPTIONS request from [https://b.example], which is not
    allowed. *)
Lemma preflight_unmatched_passes_through_witness :
  allowedOrigin (CORSConfig.AllowOrigins (applyDefaults neverSkip allowA))
    (origin preflightFromB)
  = ""
  /\ run (preflightRequest (applyDefaults neverSkip allowA)
            "GET,POST,PUT,DELETE" "" "0" (Context.Request preflightFromB)
            true "" reached)
       preflightFromB
     = reached (Context.withResponseHeader preflightFromB
                  (preflightVary (resHeader preflightFromB))).
Proof.
  split; [reflexivity |].
  apply (preflight_unmatched_passes_through (applyDefaults neverSkip allowA)
           "GET,POST,PUT,DELETE" "" "0" (Context.Request preflightFromB)
           true "" reached preflightFromB).
  right. reflexivity.
Defined.

(** X9 at an OPTIONS request from [https://a.example], credentials
    allowed. *)
Lemma preflight_matched_ends_chain_witness :
  fst (run (preflightRequest (applyDefaults neverSkip allowA_headers)
              "GET,PUT" "Content-Type,X-Token" "600"
              (Context.Request preflightFromA) true "https://a.example"
              reached)
         preflightFromA)
  = Returns None.
Proof.
  apply (preflight_matched_ends_chain (applyDefaults neverSkip allowA_headers)
           "GET,PUT" "Content-Type,X-Token" "600"
           (Context.Request preflightFromA) "https://a.example" reached
           preflightFromA).
  discriminate.
Defined.

(** X10 at an OPTIONS request that asks for [X-Foo], with no header
    configured: the request's value is echoed. *)
Lemma preflight_allow_headers_witness :
  resHeader
    (snd (run (preflightRequest (applyDefaults neverSkip allowA)
                 "GET,POST,PUT,DELETE" "" "0" (Context.Request preflightFromA)
                 true "https://a.example" reached)
            preflightFromA))
    !! HeaderAccessControlAllowHeaders
  = Some ["X-Foo"].
Proof.
  apply (preflight_allow_headers (applyDefaults neverSkip allowA)
           "GET,POST,PUT,DELETE" "" "0" (Context.Request preflightFromA)
           "https://a.example" reached preflightFromA).
  discriminate.
Defined.

(** X11 at a maximal age of ten minutes. *)
Lemma preflight_max_age_witness :
  resHeader
    (snd (run (preflightRequest (applyDefaults neverSkip allowA_headers)
                 "GET,PUT" "Content-Type,X-Token" "600"
                 (Context.Request preflightFromA) true "https://a.example"
                 reached)
            preflightFromA))
    !! HeaderAccessControlMaxAge
  = Some ["600"].
Proof.
  apply (preflight_max_age (applyDefaults neverSkip allowA_headers)
           "GET,PUT" "Content-Type,X-Token" "600"
           (Context.Request preflightFromA) "https://a.example" reached
           preflightFromA).
  discriminate.
Defined.
